(** * Stack-trace capture of the Dart VM (runtime/lib/stacktrace.cc)

    A shallow embedding of [runtime/lib/stacktrace.cc] and proofs about it.

    - Machine words are [Z] with the wrap-around written out; raw memory
      is a list of bytes (each a [Z] in [0, 256)), words being laid out
      least significant byte first.
    - A thread's stack is the list of frames the [StackFrameIterator]
      yields, innermost first.
    - [ASSERT] is fatal: a computation either returns or stops at a failed
      assertion ([outcome]).  The one piece of thread state the file
      changes, the depth of open [NoSafepointScope]s, is threaded through
      the monad [M], together with a record of every [memmove] performed.
    - [StackTraceUtils::CountFrames], [CollectFrames] and
      [CollectFramesLazy] live in vm/stack_trace.cc; the selector is
      embedded over an arbitrary implementation of them
      ([StackTraceUtils]) and, where their behaviour matters, over the one
      the specification describes ([SpecStackTraceUtils]). *)

From Stdlib Require Import ZArith String Lia.
From stdpp Require Import base list.

Local Open Scope Z_scope.

(** ** Outcomes: a fatal assertion or a result *)

Inductive outcome (A : Type) : Type :=
| Returned (a : A)
| AssertionFailed (condition : string).

Arguments Returned {A} a.
Arguments AssertionFailed {A} condition.

(** ** Raw memory: bytes and words *)

(** The [n] bytes of the word [w], least significant first. *)
Fixpoint bytes_of_word (n : nat) (w : Z) : list Z :=
  match n with
  | O => []
  | S n' => (w mod 256) :: bytes_of_word n' (w / 256)
  end.

(** The word a run of bytes holds, least significant first. *)
Fixpoint word_of_bytes (bs : list Z) : Z :=
  match bs with
  | [] => 0
  | b :: bs' => b + 256 * word_of_bytes bs'
  end.

(** [memmove(dst, src, n)]: the first [n] bytes of [dst] become the first
    [n] bytes of [src]. *)
Definition memmove (dst src : list Z) (n : Z) : list Z :=
  take (Z.to_nat n) src ++ drop (Z.to_nat n) dst.

(** ** Heap objects *)

(** The classes of vm/object.h the file uses are not part of the sources
    at hand; each is modelled by what the file relies on. *)

(** Modelled from the spec: a Code Reference, the [Code] object of one
    managed function; it has an identity and the address its executable
    payload starts at. *)
Record Code := { code_id : Z; PayloadStart : Z }.

(** Modelled from the spec: an object reference, null or a [Code]. *)
Inductive ObjectPtr :=
| Null
| CodeObject (code : Code).

(** Modelled from the spec: [Array], a fixed-length sequence of object
    slots. *)
Abbreviation Array := (list ObjectPtr) (only parsing).

(** Modelled from the spec: [GrowableObjectArray], the growable buffer of
    code references; the elements added so far, in order. *)
Abbreviation GrowableObjectArray := (list ObjectPtr) (only parsing).

(** Modelled from the spec: [GrowableArray<uword>], the growable buffer of
    raw offsets; the words added so far, in order. *)
Abbreviation GrowableArray := (list Z) (only parsing).

Inductive ClassId := kUintPtrCid.

(** Modelled from the spec: [TypedData], the fixed-length raw binary
    buffer: an element count and the bytes of the elements. *)
Record TypedData := { td_cid : ClassId; td_length : Z; td_data : list Z }.

(** Modelled from the spec: [StackTrace], the Stack Snapshot: code
    references and, in parallel, raw pc offsets. *)
Record StackTrace := { code_array : Array; pc_offset_array : TypedData }.

(** ** Frames and threads *)

(** Modelled from the spec: a frame as the Frame Walker presents it
    (isManaged, codeOf, and the pc from which the offset is taken). *)
Record StackFrame := {
  IsDartFrame : bool;
  pc : Z;
  LookupDartCode : Code
}.

(** One [memmove] as it happened: its size and the depth of open
    no-safepoint scopes around it. *)
Record Memmove := { mm_bytes : Z; mm_no_safepoint_depth : nat }.

(** Modelled from the spec: the state of the current thread that a
    capture reads or changes: its frames, innermost first and of every
    kind; the chain of asynchronous snapshots recorded for it, if any; the
    number of no-safepoint scopes open; and the [memmove]s done so far. *)
Record Thread := {
  stack_frames : list StackFrame;
  async_stack_trace : option StackTrace;
  no_safepoint_scope_depth : nat;
  memmoves : list Memmove
}.

(** Modelled from the spec: the process-wide flags of the configuration
    surface.  The source reads [FLAG_lazy_async_stacks] and declares
    [FLAG_show_invisible_frames]; a flag enabling causal chains is named
    by the specification only. *)
Record Flags := {
  FLAG_lazy_async_stacks : bool;
  FLAG_causal_async_stacks : bool;
  FLAG_show_invisible_frames : bool
}.

(** ** The monad of the runtime code *)

Definition M (A : Type) : Type := Thread -> outcome (A * Thread).

Definition ret {A} (a : A) : M A := fun thread => Returned (a, thread).

Definition bind {A B} (m : M A) (k : A -> M B) : M B :=
  fun thread =>
    match m thread with
    | Returned (a, thread') => k a thread'
    | AssertionFailed c => AssertionFailed c
    end.

Notation "x <- m ;; k" := (bind m (fun x => k))
  (at level 100, m at next level, right associativity).
Notation "m ;;; k" := (bind m (fun _ => k))
  (at level 100, right associativity).

Definition ASSERT (condition : bool) (text : string) : M unit :=
  fun thread =>
    if condition then Returned (tt, thread) else AssertionFailed text.

Definition Thread_Current : M Thread := fun thread => Returned (thread, thread).

Definition IncrementNoSafepointScopeDepth : M unit :=
  fun thread =>
    Returned (tt, {| stack_frames := stack_frames thread;
                     async_stack_trace := async_stack_trace thread;
                     no_safepoint_scope_depth := S (no_safepoint_scope_depth thread);
                     memmoves := memmoves thread |}).

Definition DecrementNoSafepointScopeDepth : M unit :=
  fun thread =>
    Returned (tt, {| stack_frames := stack_frames thread;
                     async_stack_trace := async_stack_trace thread;
                     no_safepoint_scope_depth := Nat.pred (no_safepoint_scope_depth thread);
                     memmoves := memmoves thread |}).

(** Modelled from the spec: [NoSafepointScope], the scope that forbids
    relocation for its duration; it is open from the declaration to the
    end of the block. *)
Definition NoSafepointScope {A} (block : M A) : M A :=
  IncrementNoSafepointScopeDepth ;;;
  r <- block ;;
  DecrementNoSafepointScopeDepth ;;;
  ret r.

(** [memmove] on raw memory, recorded with the depth it ran at. *)
Definition do_memmove (dst src : list Z) (n : Z) : M (list Z) :=
  fun thread =>
    Returned (memmove dst src n,
              {| stack_frames := stack_frames thread;
                 async_stack_trace := async_stack_trace thread;
                 no_safepoint_scope_depth := no_safepoint_scope_depth thread;
                 memmoves := memmoves thread ++
                   [{| mm_bytes := n;
                       mm_no_safepoint_depth := no_safepoint_scope_depth thread |}] |}).

(** ** The frame walker *)

Inductive ValidationPolicy := kValidateFrames | kDontValidateFrames.

Inductive CrossThreadPolicy :=
| kNoCrossThreadIteration
| kAllowCrossThreadIteration.

(** Modelled from the spec: [StackFrameIterator], the Frame Walker: the
    frames of the thread not yet yielded, innermost first, of every
    kind. *)
Abbreviation StackFrameIterator := (list StackFrame) (only parsing).

Definition StackFrameIterator_new (validation : ValidationPolicy)
    (thread : Thread) (cross_thread : CrossThreadPolicy)
  : StackFrameIterator :=
  stack_frames thread.

(** [NextFrame()]: the next frame, or [None] for [NULL] once the walk is
    over, and the iterator after the call. *)
Definition NextFrame (frames : StackFrameIterator)
  : option StackFrame * StackFrameIterator :=
  match frames with
  | [] => (None, [])
  | frame :: rest => (Some frame, rest)
  end.

(** The frames a loop [for (; frame != NULL; frame = frames.NextFrame())]
    visits: the frame in hand, then those the iterator has yet to
    yield. *)
Definition frames_from (frame : option StackFrame)
    (frames : StackFrameIterator) : list StackFrame :=
  match frame with
  | None => []
  | Some frame => frame :: frames
  end.

Section Stacktrace.

(** [kWordSize], the size of a machine word in bytes (vm/globals.h): a
    parameter of the whole development. *)
Variable kWordSize : nat.

Definition kBitsPerWord : Z := 8 * Z.of_nat kWordSize.

(** Conversion to [uword], an unsigned machine word, and to [intptr_t], a
    signed one. *)
Definition to_uword (z : Z) : Z := z mod 2 ^ kBitsPerWord.

Definition to_intptr (z : Z) : Z :=
  (z + 2 ^ (kBitsPerWord - 1)) mod 2 ^ kBitsPerWord - 2 ^ (kBitsPerWord - 1).

Definition kDefaultStackAllocation : Z := 8.

(** *** Operations of the object model used by the file *)

(** Modelled from the spec: the operations of [Array],
    [GrowableObjectArray], [GrowableArray<uword>], [TypedData] and
    [StackTrace] (vm/object.h, vm/growable_array.h) that the file calls,
    on the sequences above; a capacity is a hint and changes no
    content. *)
Definition ElementSizeInBytes (cid : ClassId) : nat :=
  match cid with kUintPtrCid => kWordSize end.

(** [Array::New(len)]: [len] null slots. *)
Definition Array_New (len : Z) : Array := replicate (Z.to_nat len) Null.

Definition Array_Length (a : Array) : Z := Z.of_nat (length a).

Definition Array_At (a : Array) (i : Z) : ObjectPtr :=
  if i <? 0 then Null else default Null (a !! Z.to_nat i).

(** [Array::SetAt(i, value)]. *)
Definition Array_SetAt (a : Array) (i : Z) (value : ObjectPtr) : Array :=
  if i <? 0 then a else <[Z.to_nat i := value]> a.

(** [GrowableObjectArray::New(capacity)], or [New()] with the default
    capacity for [None]: no element yet. *)
Definition GrowableObjectArray_New (capacity : option Z)
  : GrowableObjectArray := [].

Definition GrowableObjectArray_Add (growable : GrowableObjectArray)
    (value : ObjectPtr) : GrowableObjectArray :=
  growable ++ [value].

(** [Array::MakeFixedLength(list)]: the elements of the list. *)
Definition Array_MakeFixedLength (growable : GrowableObjectArray) : Array :=
  growable.

Definition GrowableArray_Add (growable : GrowableArray) (value : Z)
  : GrowableArray :=
  growable ++ [to_uword value].

Definition GrowableArray_length (growable : GrowableArray) : Z :=
  Z.of_nat (length growable).

(** [GrowableArray<uword>::data()]: the words as they lie in memory. *)
Definition GrowableArray_data (growable : GrowableArray) : list Z :=
  concat (map (bytes_of_word kWordSize) growable).

(** [TypedData::New(cid, len)]: [len] zeroed elements. *)
Definition TypedData_New (cid : ClassId) (len : Z) : TypedData :=
  {| td_cid := cid;
     td_length := len;
     td_data := replicate (Z.to_nat len * ElementSizeInBytes cid) 0 |}.

Definition TypedData_Length (td : TypedData) : Z := td_length td.

(** The buffer after its bytes, from [DataAddr(0)] on, were written. *)
Definition TypedData_with_data (td : TypedData) (data : list Z) : TypedData :=
  {| td_cid := td_cid td; td_length := td_length td; td_data := data |}.

(** [TypedData::GetUintPtr(byte_offset)]. *)
Definition TypedData_GetUintPtr (td : TypedData) (byte_offset : Z) : Z :=
  word_of_bytes (take kWordSize (drop (Z.to_nat byte_offset) (td_data td))).

(** [TypedData::SetUintPtr(byte_offset, value)]. *)
Definition TypedData_SetUintPtr (td : TypedData) (byte_offset : Z) (value : Z)
  : TypedData :=
  {| td_cid := td_cid td;
     td_length := td_length td;
     td_data := take (Z.to_nat byte_offset) (td_data td)
                ++ bytes_of_word kWordSize (to_uword value)
                ++ drop (Z.to_nat byte_offset + kWordSize) (td_data td) |}.

Definition StackTrace_New (code_array : Array) (pc_offset_array : TypedData)
  : StackTrace :=
  {| code_array := code_array; pc_offset_array := pc_offset_array |}.

(** [StackTrace::Length()], [CodeAtFrame(i)] and [PcOffsetAtFrame(i)]. *)
Definition StackTrace_Length (st : StackTrace) : Z :=
  Array_Length (code_array st).

Definition CodeAtFrame (st : StackTrace) (i : Z) : ObjectPtr :=
  Array_At (code_array st) i.

Definition PcOffsetAtFrame (st : StackTrace) (i : Z) : Z :=
  TypedData_GetUintPtr (pc_offset_array st) (i * Z.of_nat kWordSize).

(** *** stacktrace.cc *)

Definition CreateStackTraceObject
    (code_list : GrowableObjectArray) (pc_offset_list : GrowableArray)
  : M StackTrace :=
  let code_array := Array_MakeFixedLength code_list in
  let pc_offset_array :=
    TypedData_New kUintPtrCid (GrowableArray_length pc_offset_list) in
  data <- NoSafepointScope
            (do_memmove (td_data pc_offset_array)
               (GrowableArray_data pc_offset_list)
               (GrowableArray_length pc_offset_list * Z.of_nat kWordSize)) ;;
  let pc_offset_array := TypedData_with_data pc_offset_array data in
  ret (StackTrace_New code_array pc_offset_array).

(** The loop of [AppendFrames], over the frames it visits ([frames_from]):
    [[]] is [frame == NULL].  [skip_frames] is an [int]; it only ever
    decreases, and only while positive. *)
Fixpoint AppendFrames_loop (frames : list StackFrame) (skip_frames : Z)
    (code_list : GrowableObjectArray) (pc_offset_list : GrowableArray)
  : GrowableObjectArray * GrowableArray :=
  match frames with
  | [] => (code_list, pc_offset_list)
  | frame :: frames' =>
      if negb (IsDartFrame frame) then
        AppendFrames_loop frames' skip_frames code_list pc_offset_list
      else if 0 <? skip_frames then
        AppendFrames_loop frames' (skip_frames - 1) code_list pc_offset_list
      else
        let code := LookupDartCode frame in
        let pc_offset := to_intptr (pc frame - PayloadStart code) in
        AppendFrames_loop frames' skip_frames
          (GrowableObjectArray_Add code_list (CodeObject code))
          (GrowableArray_Add pc_offset_list pc_offset)
  end.

Definition AppendFrames
    (code_list : GrowableObjectArray) (pc_offset_list : GrowableArray)
    (skip_frames : Z)
  : M (GrowableObjectArray * GrowableArray) :=
  thread <- Thread_Current ;;
  let frames :=
    StackFrameIterator_new kDontValidateFrames thread kNoCrossThreadIteration in
  let '(frame, frames) := NextFrame frames in
  ASSERT (bool_decide (frame <> None)) "frame != NULL" ;;;
  ret (AppendFrames_loop (frames_from frame frames) skip_frames
         code_list pc_offset_list).

Definition GetCurrentStackTrace (skip_frames : Z) : M StackTrace :=
  let code_list := GrowableObjectArray_New None in
  let pc_offset_list : GrowableArray := [] in
  lists <- AppendFrames code_list pc_offset_list skip_frames ;;
  let '(code_list, pc_offset_list) := lists in
  CreateStackTraceObject code_list pc_offset_list.

Definition HasStack (thread : Thread) : bool :=
  let frames :=
    StackFrameIterator_new kDontValidateFrames thread kNoCrossThreadIteration in
  let '(frame, _) := NextFrame frames in
  bool_decide (frame <> None).

(** *** The selector, over any [StackTraceUtils] *)

(** The three functions of [StackTraceUtils] (vm/stack_trace.cc) the file
    calls.  They receive the thread through the monad; the arrays passed
    by reference come back as results. *)
Record StackTraceUtils := {
  CountFrames : Z -> ObjectPtr -> option bool -> M Z;
  CollectFrames :
    Array -> TypedData -> Z -> Z -> Z -> M (Array * TypedData * Z);
  CollectFramesLazy :
    GrowableObjectArray -> GrowableArray -> Z
    -> M (GrowableObjectArray * GrowableArray)
}.

Section Selector.

Variable utils : StackTraceUtils.
Variable flags : Flags.

Definition CurrentSyncStackTraceLazy (skip_frames : Z) : M StackTrace :=
  let code_array := GrowableObjectArray_New (Some kDefaultStackAllocation) in
  let pc_offset_array : GrowableArray := [] in
  lists <- CollectFramesLazy utils code_array pc_offset_array skip_frames ;;
  let '(code_array, pc_offset_array) := lists in
  CreateStackTraceObject code_array pc_offset_array.

Definition CurrentSyncStackTrace (skip_frames : Z) : M StackTrace :=
  let null_function := Null in
  stack_trace_length <- CountFrames utils skip_frames null_function None ;;
  let code_array := Array_New stack_trace_length in
  let pc_offset_array := TypedData_New kUintPtrCid stack_trace_length in
  collected <- CollectFrames utils code_array pc_offset_array 0
                 stack_trace_length skip_frames ;;
  let '(code_array, pc_offset_array, collected_frames_count) := collected in
  ASSERT (collected_frames_count =? stack_trace_length)
         "collected_frames_count == stack_trace_length" ;;;
  ret (StackTrace_New code_array pc_offset_array).

Definition CurrentStackTrace (for_async_function : bool) (skip_frames : Z)
  : M StackTrace :=
  if FLAG_lazy_async_stacks flags then
    CurrentSyncStackTraceLazy skip_frames
  else
    CurrentSyncStackTrace skip_frames.

Definition GetStackTraceForException : M StackTrace :=
  CurrentStackTrace false 0.

(** The native entry [StackTrace_current]; [skip_frames] takes its
    default, 1. *)
Definition StackTrace_current : M StackTrace :=
  CurrentStackTrace false 1.

End Selector.

(** *** The frame counter and collectors of the specification *)

(** Modelled from the spec: the Frame Counter (4.1), the body of
    [StackTraceUtils::CountFrames], missing from the sources: the number
    of managed frames found after skipping the first [skip_frames] of
    them. *)
Fixpoint CountFrames_loop (frames : list StackFrame) (skip_frames : Z)
    (frame_count : Z) : Z :=
  match frames with
  | [] => frame_count
  | frame :: frames' =>
      if negb (IsDartFrame frame) then
        CountFrames_loop frames' skip_frames frame_count
      else if 0 <? skip_frames then
        CountFrames_loop frames' (skip_frames - 1) frame_count
      else
        CountFrames_loop frames' skip_frames (frame_count + 1)
  end.

(** Modelled from the spec: the fixed Frame Collector (4.3), the body of
    [StackTraceUtils::CollectFrames], missing from the sources: one walk
    that writes the code and the pc offset of each managed frame beyond
    the skip count into the next slot, from [array_offset] on, for at most
    [count] frames, and returns how many it wrote. *)
Fixpoint CollectFrames_loop (frames : list StackFrame)
    (code_array : Array) (pc_offset_array : TypedData)
    (array_offset count skip_frames collected_frames_count : Z)
  : Array * TypedData * Z :=
  match frames with
  | [] => (code_array, pc_offset_array, collected_frames_count)
  | frame :: frames' =>
      if negb (collected_frames_count <? count) then
        (code_array, pc_offset_array, collected_frames_count)
      else if negb (IsDartFrame frame) then
        CollectFrames_loop frames' code_array pc_offset_array
          array_offset count skip_frames collected_frames_count
      else if 0 <? skip_frames then
        CollectFrames_loop frames' code_array pc_offset_array
          array_offset count (skip_frames - 1) collected_frames_count
      else
        let code := LookupDartCode frame in
        let offset := to_intptr (pc frame - PayloadStart code) in
        CollectFrames_loop frames'
          (Array_SetAt code_array array_offset (CodeObject code))
          (TypedData_SetUintPtr pc_offset_array
             (array_offset * Z.of_nat kWordSize) offset)
          (array_offset + 1) count skip_frames (collected_frames_count + 1)
  end.

(** Modelled from the spec: the growable Frame Collector (4.2), the body
    of [StackTraceUtils::CollectFramesLazy], missing from the sources: one
    walk that appends the code and the pc offset of each managed frame
    beyond the skip count; no frame at all is a valid, empty result. *)
Fixpoint CollectFramesLazy_loop (frames : list StackFrame) (skip_frames : Z)
    (code_array : GrowableObjectArray) (pc_offset_array : GrowableArray)
  : GrowableObjectArray * GrowableArray :=
  match frames with
  | [] => (code_array, pc_offset_array)
  | frame :: frames' =>
      if IsDartFrame frame then
        if 0 <? skip_frames then
          CollectFramesLazy_loop frames' (skip_frames - 1)
            code_array pc_offset_array
        else
          let code := LookupDartCode frame in
          CollectFramesLazy_loop frames' skip_frames
            (GrowableObjectArray_Add code_array (CodeObject code))
            (GrowableArray_Add pc_offset_array
               (to_intptr (pc frame - PayloadStart code)))
      else
        CollectFramesLazy_loop frames' skip_frames code_array pc_offset_array
  end.

(** The frames a walk of the current thread visits. *)
Definition walk_of (thread : Thread) : list StackFrame :=
  StackFrameIterator_new kDontValidateFrames thread kNoCrossThreadIteration.

(** Modelled from the spec: [StackTraceUtils] as sections 4.1 to 4.3
    describe it; each function walks the frames of the current thread
    from the innermost on. *)
Definition SpecStackTraceUtils : StackTraceUtils :=
  {| CountFrames := fun skip_frames _ _ =>
       thread <- Thread_Current ;;
       ret (CountFrames_loop (walk_of thread) skip_frames 0);
     CollectFrames := fun code_array pc_offset_array array_offset count skip_frames =>
       thread <- Thread_Current ;;
       ret (CollectFrames_loop (walk_of thread)
              code_array pc_offset_array array_offset count skip_frames 0);
     CollectFramesLazy := fun code_array pc_offset_array skip_frames =>
       thread <- Thread_Current ;;
       ret (CollectFramesLazy_loop (walk_of thread) skip_frames
              code_array pc_offset_array) |}.

(** *** Reading a snapshot, and the frames a capture is to hold *)

(** The pair a snapshot holds at index [i]. *)
Definition entry_at (st : StackTrace) (i : nat) : ObjectPtr * Z :=
  (CodeAtFrame st (Z.of_nat i), PcOffsetAtFrame st (Z.of_nat i)).

(** The pairs of a snapshot, index 0 first. *)
Definition entries (st : StackTrace) : list (ObjectPtr * Z) :=
  map (entry_at st) (seq 0 (Z.to_nat (StackTrace_Length st))).

(** The managed frames of a stack. *)
Definition managed_frames (frames : list StackFrame) : list StackFrame :=
  List.filter IsDartFrame frames.

(** The frames a capture with [skip_frames] is to hold, following the
    specification's words: the managed frames, innermost first, without
    the first [skip_frames] of them. *)
Definition eligible_frames (frames : list StackFrame) (skip_frames : Z)
  : list StackFrame :=
  drop (Z.to_nat skip_frames) (managed_frames frames).

(** The pair recorded for a frame. *)
Definition frame_pc_offset (frame : StackFrame) : Z :=
  to_uword (pc frame - PayloadStart (LookupDartCode frame)).

Definition frame_entry (frame : StackFrame) : ObjectPtr * Z :=
  (CodeObject (LookupDartCode frame), frame_pc_offset frame).

(** The snapshot that holds exactly the given frames. *)
Definition snapshot_of (frames : list StackFrame) : StackTrace :=
  {| code_array := map (fun frame => CodeObject (LookupDartCode frame)) frames;
     pc_offset_array :=
       {| td_cid := kUintPtrCid;
          td_length := Z.of_nat (length frames);
          td_data := GrowableArray_data (map frame_pc_offset frames) |} |}.

(** The thread after one [memmove] of [n] bytes inside one more
    no-safepoint scope than were open. *)
Definition after_guarded_memmove (thread : Thread) (n : Z) : Thread :=
  {| stack_frames := stack_frames thread;
     async_stack_trace := async_stack_trace thread;
     no_safepoint_scope_depth := no_safepoint_scope_depth thread;
     memmoves := memmoves thread ++
       [{| mm_bytes := n;
           mm_no_safepoint_depth := S (no_safepoint_scope_depth thread) |}] |}.

(** The snapshot [st] defers to the chain of asynchronous snapshots the
    thread carries: it is that chain, or a synchronous leaf segment
    followed by it. *)
Definition defers_to_chain (thread : Thread) (st : StackTrace) : Prop :=
  forall chain, async_stack_trace thread = Some chain ->
    exists leaf, entries st = leaf ++ entries chain.

(** *** Sample stacks *)

Definition code_main : Code := {| code_id := 1; PayloadStart := 4096 |}.
Definition code_run : Code := {| code_id := 2; PayloadStart := 8192 |}.
Definition code_throw : Code := {| code_id := 3; PayloadStart := 12288 |}.
Definition code_resume : Code := {| code_id := 4; PayloadStart := 16384 |}.

Definition frame_main : StackFrame :=
  {| IsDartFrame := true; pc := 4136; LookupDartCode := code_main |}.
Definition frame_run : StackFrame :=
  {| IsDartFrame := true; pc := 8492; LookupDartCode := code_run |}.
Definition frame_throw : StackFrame :=
  {| IsDartFrame := true; pc := 12300; LookupDartCode := code_throw |}.

(** An exit frame and an entry frame of the runtime: not Dart frames. *)
Definition frame_exit : StackFrame :=
  {| IsDartFrame := false; pc := 77; LookupDartCode := code_main |}.
Definition frame_entry_stub : StackFrame :=
  {| IsDartFrame := false; pc := 99; LookupDartCode := code_main |}.

Definition thread_with (frames : list StackFrame)
    (chain : option StackTrace) : Thread :=
  {| stack_frames := frames;
     async_stack_trace := chain;
     no_safepoint_scope_depth := 0;
     memmoves := [] |}.

(** Three nested managed calls below the runtime's exit frame. *)
Definition thread_three_calls : Thread :=
  thread_with [frame_exit; frame_throw; frame_run; frame_main; frame_entry_stub]
              None.

(** A thread that has made no call yet. *)
Definition thread_at_start : Thread := thread_with [] None.

(** A thread inside the runtime only. *)
Definition thread_in_runtime : Thread := thread_with [frame_exit] None.

(** One frame of an asynchronous continuation, recorded earlier, on a
    target with 8-byte words. *)
Definition recorded_chain : StackTrace :=
  {| code_array := [CodeObject code_resume];
     pc_offset_array :=
       {| td_cid := kUintPtrCid; td_length := 1;
          td_data := [44; 1; 0; 0; 0; 0; 0; 0] |} |}.

Definition thread_with_chain : Thread :=
  thread_with [frame_exit; frame_throw] (Some recorded_chain).

Definition flags_causal : Flags :=
  {| FLAG_lazy_async_stacks := false;
     FLAG_causal_async_stacks := true;
     FLAG_show_invisible_frames := false |}.

Definition flags_default : Flags :=
  {| FLAG_lazy_async_stacks := false;
     FLAG_causal_async_stacks := false;
     FLAG_show_invisible_frames := false |}.

(** The thread once it has entered one more call, [frame] being the new
    innermost frame. *)
Definition push_frame (frame : StackFrame) (thread : Thread) : Thread :=
  {| stack_frames := frame :: stack_frames thread;
     async_stack_trace := async_stack_trace thread;
     no_safepoint_scope_depth := no_safepoint_scope_depth thread;
     memmoves := memmoves thread |}.

(** The same managed calls as [thread_three_calls], seen from inside a
    stub of the runtime. *)
Definition thread_three_calls_in_stub : Thread :=
  thread_with [frame_exit; frame_exit; frame_throw; frame_entry_stub;
               frame_run; frame_main] None.

(** A [StackTraceUtils] whose counter and fixed collector stop at an
    assertion of their own; its growable collector is the one of
    [SpecStackTraceUtils]. *)
Definition growable_only_utils : StackTraceUtils :=
  {| CountFrames := fun _ _ _ =>
       ASSERT false "frame != NULL" ;;; ret 0;
     CollectFrames := fun code_array pc_offset_array _ _ _ =>
       ASSERT false "frame != NULL" ;;; ret (code_array, pc_offset_array, 0);
     CollectFramesLazy := CollectFramesLazy SpecStackTraceUtils |}.

Definition flags_lazy : Flags :=
  {| FLAG_lazy_async_stacks := true;
     FLAG_causal_async_stacks := false;
     FLAG_show_invisible_frames := false |}.

(** *** Proof steps shared by the walks *)

Ltac walk_cases frame Hdart Hskip :=
  destruct (IsDartFrame frame) eqn:Hdart; simpl;
  [ match goal with
    | |- context [0 <? ?k] => destruct (Z.ltb_spec 0 k) as [Hskip|Hskip]
    end
  | ].

(** *** Properties of raw memory *)

Lemma bytes_of_word_length (n : nat) (w : Z) :
  length (bytes_of_word n w) = n.
Proof.
  revert w; induction n as [|n IH]; intros w; simpl; [reflexivity|].
  now rewrite IH.
Qed.

Lemma word_of_bytes_of_word (n : nat) (w : Z) :
  word_of_bytes (bytes_of_word n w) = w mod 256 ^ Z.of_nat n.
Proof.
  revert w; induction n as [|n IH]; intros w.
  - simpl. now rewrite Z.mod_1_r.
  - cbn [bytes_of_word word_of_bytes]. rewrite IH.
    rewrite Nat2Z.inj_succ, Z.pow_succ_r by lia.
    rewrite Z.rem_mul_r; [reflexivity | lia |].
    apply Z.pow_pos_nonneg; lia.
Qed.

Lemma word_modulus : 2 ^ kBitsPerWord = 256 ^ Z.of_nat kWordSize.
Proof.
  unfold kBitsPerWord. rewrite Z.pow_mul_r by lia. reflexivity.
Qed.

Lemma word_modulus_pos : 0 < 2 ^ kBitsPerWord.
Proof. apply Z.pow_pos_nonneg; unfold kBitsPerWord; lia. Qed.

Lemma to_uword_idemp (z : Z) : to_uword (to_uword z) = to_uword z.
Proof. unfold to_uword. apply Z.mod_mod. pose proof word_modulus_pos; lia. Qed.

Lemma to_uword_to_intptr (z : Z) : to_uword (to_intptr z) = to_uword z.
Proof.
  unfold to_uword, to_intptr. rewrite Zminus_mod_idemp_l.
  f_equal; lia.
Qed.

Lemma word_of_bytes_of_uword (z : Z) :
  word_of_bytes (bytes_of_word kWordSize (to_uword z)) = to_uword z.
Proof.
  rewrite word_of_bytes_of_word, <- word_modulus. apply to_uword_idemp.
Qed.

Lemma GrowableArray_data_length (words : GrowableArray) :
  length (GrowableArray_data words) = (length words * kWordSize)%nat.
Proof.
  unfold GrowableArray_data. induction words as [|w ws IH]; simpl; [reflexivity|].
  rewrite length_app, bytes_of_word_length, IH. reflexivity.
Qed.

Lemma GrowableArray_data_app (ws1 ws2 : GrowableArray) :
  GrowableArray_data (ws1 ++ ws2)
  = GrowableArray_data ws1 ++ GrowableArray_data ws2.
Proof.
  unfold GrowableArray_data. now rewrite map_app, concat_app.
Qed.

Lemma GrowableArray_data_drop (i : nat) (words : GrowableArray) :
  drop (i * kWordSize) (GrowableArray_data words)
  = GrowableArray_data (drop i words).
Proof.
  revert words; induction i as [|i IH]; intros words; [reflexivity|].
  destruct words as [|w ws].
  - unfold GrowableArray_data. simpl. now rewrite drop_nil.
  - replace (S i * kWordSize)%nat
      with (length (bytes_of_word kWordSize w) + i * kWordSize)%nat
      by (rewrite bytes_of_word_length; lia).
    change (GrowableArray_data (w :: ws))
      with (bytes_of_word kWordSize w ++ GrowableArray_data ws).
    rewrite drop_app_add. apply IH.
Qed.

(** Reading word [i] of memory that holds [words] gives [words !! i]. *)
Lemma GetUintPtr_data (td : TypedData) (words : GrowableArray) (i : nat) (w : Z) :
  td_data td = GrowableArray_data words ->
  words !! i = Some w ->
  TypedData_GetUintPtr td (Z.of_nat i * Z.of_nat kWordSize)
  = w mod 2 ^ kBitsPerWord.
Proof.
  intros Hdata Hw. unfold TypedData_GetUintPtr. rewrite Hdata.
  rewrite <- Nat2Z.inj_mul, Nat2Z.id, GrowableArray_data_drop.
  rewrite (drop_S _ _ _ Hw).
  change (GrowableArray_data (w :: drop (S i) words))
    with (bytes_of_word kWordSize w ++ GrowableArray_data (drop (S i) words)).
  rewrite <- (bytes_of_word_length kWordSize w) at 1.
  rewrite take_app_length, word_of_bytes_of_word, word_modulus. reflexivity.
Qed.

(** *** The frames a walk keeps *)

Lemma eligible_frames_other (frame : StackFrame) frames skip_frames :
  IsDartFrame frame = false ->
  eligible_frames (frame :: frames) skip_frames
  = eligible_frames frames skip_frames.
Proof.
  intros H. unfold eligible_frames, managed_frames. simpl. now rewrite H.
Qed.

Lemma eligible_frames_skip (frame : StackFrame) frames skip_frames :
  IsDartFrame frame = true -> 0 < skip_frames ->
  eligible_frames (frame :: frames) skip_frames
  = eligible_frames frames (skip_frames - 1).
Proof.
  intros H Hk. unfold eligible_frames, managed_frames. simpl. rewrite H.
  replace (Z.to_nat skip_frames) with (S (Z.to_nat (skip_frames - 1))) by lia.
  reflexivity.
Qed.

Lemma eligible_frames_keep (frame : StackFrame) frames skip_frames :
  IsDartFrame frame = true -> skip_frames <= 0 ->
  eligible_frames (frame :: frames) skip_frames
  = frame :: eligible_frames frames skip_frames.
Proof.
  intros H Hk. unfold eligible_frames, managed_frames. simpl. rewrite H.
  replace (Z.to_nat skip_frames) with O by lia. reflexivity.
Qed.

Lemma eligible_frames_succ frames skip_frames :
  0 <= skip_frames ->
  eligible_frames frames (skip_frames + 1)
  = drop 1 (eligible_frames frames skip_frames).
Proof.
  intros Hk. unfold eligible_frames. rewrite drop_drop. f_equal. lia.
Qed.

Lemma eligible_frames_all frames skip_frames :
  Z.of_nat (length (managed_frames frames)) <= skip_frames ->
  eligible_frames frames skip_frames = [].
Proof.
  intros Hk. unfold eligible_frames. apply drop_ge. lia.
Qed.

Lemma eligible_frames_length frames skip_frames :
  0 <= skip_frames ->
  Z.of_nat (length (eligible_frames frames skip_frames))
  = Z.max 0 (Z.of_nat (length (managed_frames frames)) - skip_frames).
Proof.
  intros Hk. unfold eligible_frames. rewrite length_drop. lia.
Qed.

(** *** The loops, against the frames they are to keep *)

Lemma AppendFrames_loop_eligible frames skip_frames code_list pc_offset_list :
  AppendFrames_loop frames skip_frames code_list pc_offset_list
  = (code_list
       ++ map (fun frame => CodeObject (LookupDartCode frame))
              (eligible_frames frames skip_frames),
     pc_offset_list
       ++ map frame_pc_offset (eligible_frames frames skip_frames)).
Proof.
  revert skip_frames code_list pc_offset_list.
  induction frames as [|frame frames IH]; intros skip_frames code_list pc_offset_list.
  - unfold eligible_frames. simpl. rewrite drop_nil. simpl.
    now rewrite !app_nil_r.
  - cbn [AppendFrames_loop]. walk_cases frame Hdart Hskip.
    + rewrite IH, eligible_frames_skip by assumption. reflexivity.
    + rewrite IH, eligible_frames_keep by assumption.
      unfold GrowableObjectArray_Add, GrowableArray_Add, frame_pc_offset at 2.
      rewrite to_uword_to_intptr. simpl. now rewrite <- !app_assoc.
    + rewrite IH, eligible_frames_other by assumption. reflexivity.
Qed.

Lemma CollectFramesLazy_loop_eligible frames skip_frames code_array pc_offset_array :
  CollectFramesLazy_loop frames skip_frames code_array pc_offset_array
  = (code_array
       ++ map (fun frame => CodeObject (LookupDartCode frame))
              (eligible_frames frames skip_frames),
     pc_offset_array
       ++ map frame_pc_offset (eligible_frames frames skip_frames)).
Proof.
  revert skip_frames code_array pc_offset_array.
  induction frames as [|frame frames IH]; intros skip_frames code_array pc_offset_array.
  - unfold eligible_frames. simpl. rewrite drop_nil. simpl.
    now rewrite !app_nil_r.
  - cbn [CollectFramesLazy_loop]. walk_cases frame Hdart Hskip.
    + rewrite IH, eligible_frames_skip by assumption. reflexivity.
    + rewrite IH, eligible_frames_keep by assumption.
      unfold GrowableObjectArray_Add, GrowableArray_Add, frame_pc_offset at 2.
      rewrite to_uword_to_intptr. simpl. now rewrite <- !app_assoc.
    + rewrite IH, eligible_frames_other by assumption. reflexivity.
Qed.

Lemma CountFrames_loop_eligible frames skip_frames frame_count :
  CountFrames_loop frames skip_frames frame_count
  = frame_count + Z.of_nat (length (eligible_frames frames skip_frames)).
Proof.
  revert skip_frames frame_count.
  induction frames as [|frame frames IH]; intros skip_frames frame_count.
  - unfold eligible_frames. simpl. rewrite drop_nil. simpl. lia.
  - cbn [CountFrames_loop]. walk_cases frame Hdart Hskip.
    + rewrite IH, eligible_frames_skip by assumption. reflexivity.
    + rewrite IH, eligible_frames_keep by assumption. simpl length. lia.
    + rewrite IH, eligible_frames_other by assumption. reflexivity.
Qed.

Lemma Array_SetAt_next (written : Array) (m : nat) (value : ObjectPtr) :
  Array_SetAt (written ++ replicate (S m) Null) (Z.of_nat (length written)) value
  = (written ++ [value]) ++ replicate m Null.
Proof.
  unfold Array_SetAt.
  destruct (Z.ltb_spec (Z.of_nat (length written)) 0) as [H|_]; [lia|].
  rewrite Nat2Z.id, <- app_assoc.
  replace (length written) with (length written + 0)%nat at 1 by lia.
  now rewrite insert_app_r.
Qed.

Lemma SetUintPtr_next (td : TypedData) (words : GrowableArray) (m : nat) (value : Z) :
  td_data td = GrowableArray_data words ++ replicate (S m * kWordSize) 0 ->
  td_data (TypedData_SetUintPtr td
             (Z.of_nat (length words) * Z.of_nat kWordSize) value)
  = GrowableArray_data (words ++ [to_uword value])
      ++ replicate (m * kWordSize) 0.
Proof.
  intros Hdata. unfold TypedData_SetUintPtr. cbn [td_data]. rewrite Hdata.
  rewrite <- Nat2Z.inj_mul, Nat2Z.id, <- GrowableArray_data_length.
  rewrite take_app_length, drop_app_add.
  change (S m * kWordSize)%nat with (kWordSize + m * kWordSize)%nat.
  rewrite drop_replicate_add, GrowableArray_data_app, <- app_assoc.
  f_equal. unfold GrowableArray_data. simpl. now rewrite app_nil_r.
Qed.

Lemma CollectFrames_loop_eligible frames :
  forall skip_frames (written : Array) (words : GrowableArray) (m : nat)
         (td : TypedData) (count collected : Z),
    length (eligible_frames frames skip_frames) = m ->
    count - collected = Z.of_nat m ->
    length words = length written ->
    td_data td = GrowableArray_data words ++ replicate (m * kWordSize) 0 ->
    CollectFrames_loop frames (written ++ replicate m Null) td
      (Z.of_nat (length written)) count skip_frames collected
    = (written
         ++ map (fun frame => CodeObject (LookupDartCode frame))
                (eligible_frames frames skip_frames),
       {| td_cid := td_cid td;
          td_length := td_length td;
          td_data := GrowableArray_data
                       (words ++ map frame_pc_offset
                                     (eligible_frames frames skip_frames)) |},
       collected + Z.of_nat m).
Proof.
  assert (Hdone : forall (written : Array) words td (collected : Z) E,
    length E = O ->
    td_data td = GrowableArray_data words ++ replicate (0 * kWordSize) 0 ->
    (written ++ replicate 0 Null, td, collected)
    = (written ++ map (fun frame => CodeObject (LookupDartCode frame)) E,
       {| td_cid := td_cid td; td_length := td_length td;
          td_data := GrowableArray_data (words ++ map frame_pc_offset E) |},
       collected + Z.of_nat 0)).
  { intros written words td collected E HE Hdata.
    apply nil_length_inv in HE. subst E. simpl in *.
    rewrite !app_nil_r in *. rewrite Z.add_0_r, <- Hdata.
    destruct td; reflexivity. }
  induction frames as [|frame frames IH];
    intros skip_frames written words m td count collected HE Hcount Hlen Hdata.
  - simpl. subst m. unfold eligible_frames in *. simpl in *.
    rewrite drop_nil in *. now apply Hdone.
  - cbn [CollectFrames_loop].
    destruct (Z.ltb_spec collected count) as [Hlt|Hge]; simpl.
    + walk_cases frame Hdart Hskip.
      * rewrite eligible_frames_skip in * by assumption. now apply IH.
      * rewrite eligible_frames_keep in * by assumption.
        destruct m as [|m]; [discriminate|]. simpl in HE.
        rewrite Array_SetAt_next.
        replace (Z.of_nat (length written) + 1)
          with (Z.of_nat (length (written ++ [CodeObject (LookupDartCode frame)])))
          by (rewrite length_app; simpl; lia).
        rewrite (IH skip_frames _ (words ++ [frame_pc_offset frame]) m).
        -- simpl. rewrite <- !app_assoc. simpl. f_equal. lia.
        -- lia.
        -- lia.
        -- rewrite !length_app. simpl. lia.
        -- rewrite <- Hlen. unfold frame_pc_offset.
           rewrite <- to_uword_to_intptr. now apply SetUintPtr_next.
      * rewrite eligible_frames_other in * by assumption. now apply IH.
    + destruct m as [|m]; [|lia]. now apply Hdone.
Qed.

(** *** What each capture returns *)

Lemma memmove_whole (dst src : list Z) :
  length dst = length src ->
  memmove dst src (Z.of_nat (length src)) = src.
Proof.
  intros Hlen. unfold memmove. rewrite Nat2Z.id.
  rewrite take_ge, drop_ge by lia. apply app_nil_r.
Qed.

Lemma CreateStackTraceObject_run code_list pc_offset_list thread :
  CreateStackTraceObject code_list pc_offset_list thread
  = Returned
      ({| code_array := code_list;
          pc_offset_array :=
            {| td_cid := kUintPtrCid;
               td_length := Z.of_nat (length pc_offset_list);
               td_data := GrowableArray_data pc_offset_list |} |},
       after_guarded_memmove thread
         (Z.of_nat (length pc_offset_list) * Z.of_nat kWordSize)).
Proof.
  unfold CreateStackTraceObject, NoSafepointScope, bind, do_memmove, ret,
    IncrementNoSafepointScopeDepth, DecrementNoSafepointScopeDepth,
    after_guarded_memmove, StackTrace_New, Array_MakeFixedLength,
    TypedData_New, GrowableArray_length, ElementSizeInBytes.
  cbn. rewrite Nat2Z.id, <- Nat2Z.inj_mul, <- GrowableArray_data_length.
  rewrite memmove_whole; [reflexivity|].
  now rewrite length_replicate.
Qed.

Lemma AppendFrames_run code_list pc_offset_list skip_frames thread :
  stack_frames thread <> [] ->
  AppendFrames code_list pc_offset_list skip_frames thread
  = Returned
      (AppendFrames_loop (stack_frames thread) skip_frames
         code_list pc_offset_list, thread).
Proof.
  intros Hstack. unfold AppendFrames, bind, Thread_Current, StackFrameIterator_new.
  destruct (stack_frames thread) as [|frame frames]; [congruence|].
  reflexivity.
Qed.

Lemma AppendFrames_no_frame code_list pc_offset_list skip_frames thread :
  stack_frames thread = [] ->
  AppendFrames code_list pc_offset_list skip_frames thread
  = AssertionFailed "frame != NULL".
Proof.
  intros Hstack. unfold AppendFrames, bind, Thread_Current, StackFrameIterator_new.
  now rewrite Hstack.
Qed.

Lemma GetCurrentStackTrace_run skip_frames thread :
  stack_frames thread <> [] ->
  GetCurrentStackTrace skip_frames thread
  = Returned
      (snapshot_of (eligible_frames (stack_frames thread) skip_frames),
       after_guarded_memmove thread
         (Z.of_nat (length (eligible_frames (stack_frames thread) skip_frames))
          * Z.of_nat kWordSize)).
Proof.
  intros Hstack. unfold GetCurrentStackTrace, bind at 1.
  rewrite AppendFrames_run by assumption.
  rewrite AppendFrames_loop_eligible. unfold GrowableObjectArray_New. simpl.
  rewrite CreateStackTraceObject_run, length_map. reflexivity.
Qed.

Lemma GetCurrentStackTrace_no_frame skip_frames thread :
  stack_frames thread = [] ->
  GetCurrentStackTrace skip_frames thread = AssertionFailed "frame != NULL".
Proof.
  intros Hstack. unfold GetCurrentStackTrace, bind at 1.
  now rewrite AppendFrames_no_frame.
Qed.

Lemma CurrentSyncStackTraceLazy_run skip_frames thread :
  CurrentSyncStackTraceLazy SpecStackTraceUtils skip_frames thread
  = Returned
      (snapshot_of (eligible_frames (stack_frames thread) skip_frames),
       after_guarded_memmove thread
         (Z.of_nat (length (eligible_frames (stack_frames thread) skip_frames))
          * Z.of_nat kWordSize)).
Proof.
  unfold CurrentSyncStackTraceLazy, bind at 1. cbn.
  unfold walk_of, StackFrameIterator_new. rewrite CollectFramesLazy_loop_eligible.
  unfold GrowableObjectArray_New. simpl.
  rewrite CreateStackTraceObject_run, length_map. reflexivity.
Qed.

Lemma CurrentSyncStackTrace_run skip_frames thread :
  CurrentSyncStackTrace SpecStackTraceUtils skip_frames thread
  = Returned
      (snapshot_of (eligible_frames (stack_frames thread) skip_frames), thread).
Proof.
  unfold CurrentSyncStackTrace, bind at 1. cbn.
  unfold walk_of, StackFrameIterator_new.
  rewrite CountFrames_loop_eligible. rewrite Z.add_0_l.
  unfold bind at 1. cbn.
  set (E := eligible_frames (stack_frames thread) skip_frames).
  unfold Array_New. rewrite Nat2Z.id.
  pose proof (CollectFrames_loop_eligible (stack_frames thread) skip_frames
                [] [] (length E)
                (TypedData_New kUintPtrCid (Z.of_nat (length E)))
                (Z.of_nat (length E)) 0) as Hloop.
  simpl in Hloop. fold E in Hloop. change (Z.of_nat 0) with 0 in Hloop.
  rewrite Hloop.
  - unfold bind, ASSERT, ret, StackTrace_New, snapshot_of. simpl.
    rewrite Z.eqb_refl. reflexivity.
  - reflexivity.
  - lia.
  - reflexivity.
  - unfold TypedData_New. simpl. now rewrite Nat2Z.id.
Qed.

(** *** Reading the snapshot of a list of frames *)

Lemma lookup_map {A B} (f : A -> B) (l : list A) (i : nat) :
  map f l !! i = option_map f (l !! i).
Proof. change (map f l) with (f <$> l). apply list_lookup_fmap. Qed.

Lemma StackTrace_Length_snapshot_of frames :
  StackTrace_Length (snapshot_of frames) = Z.of_nat (length frames).
Proof.
  unfold StackTrace_Length, Array_Length, snapshot_of. simpl.
  now rewrite length_map.
Qed.

Lemma TypedData_Length_snapshot_of frames :
  TypedData_Length (pc_offset_array (snapshot_of frames))
  = Z.of_nat (length frames).
Proof. reflexivity. Qed.

Lemma entry_at_snapshot_of frames (i : nat) frame :
  frames !! i = Some frame ->
  entry_at (snapshot_of frames) i = frame_entry frame.
Proof.
  intros Hi. unfold entry_at, frame_entry, CodeAtFrame, PcOffsetAtFrame.
  f_equal.
  - unfold Array_At, snapshot_of. cbn [code_array].
    destruct (Z.ltb_spec (Z.of_nat i) 0) as [H|_]; [lia|].
    rewrite Nat2Z.id, lookup_map, Hi. reflexivity.
  - rewrite (GetUintPtr_data _ (map frame_pc_offset frames) i
               (frame_pc_offset frame)).
    + apply to_uword_idemp.
    + reflexivity.
    + now rewrite lookup_map, Hi.
Qed.

Lemma entries_snapshot_of frames :
  entries (snapshot_of frames) = map frame_entry frames.
Proof.
  unfold entries. rewrite StackTrace_Length_snapshot_of, Nat2Z.id.
  apply list_eq. intros i.
  rewrite !lookup_map.
  destruct (frames !! i) as [frame|] eqn:Hi; simpl.
  - rewrite lookup_seq_lt by (apply lookup_lt_Some in Hi; lia). simpl.
    now rewrite (entry_at_snapshot_of _ _ _ Hi).
  - rewrite lookup_seq_ge by (apply lookup_ge_None in Hi; lia). reflexivity.
Qed.

Lemma CurrentStackTrace_run (flags : Flags) (for_async_function : bool)
    (k : Z) (thread : Thread) :
  exists thread',
    CurrentStackTrace SpecStackTraceUtils flags for_async_function k thread
    = Returned (snapshot_of (eligible_frames (stack_frames thread) k), thread').
Proof.
  unfold CurrentStackTrace. destruct (FLAG_lazy_async_stacks flags).
  - eexists. apply CurrentSyncStackTraceLazy_run.
  - eexists. apply CurrentSyncStackTrace_run.
Qed.

(** *** The two synchronous strategies *)

(** Whatever the skip count, the counted two-pass capture and the
    single-pass growable capture return the same snapshot. *)
Lemma eager_lazy_same_snapshot (thread : Thread) (k : Z) :
  exists st thread_e thread_l,
    CurrentSyncStackTrace SpecStackTraceUtils k thread = Returned (st, thread_e) /\
    CurrentSyncStackTraceLazy SpecStackTraceUtils k thread = Returned (st, thread_l).
Proof.
  eexists _, _, _. split.
  - apply CurrentSyncStackTrace_run.
  - apply CurrentSyncStackTraceLazy_run.
Qed.

(** C1: on every thread stack and for every valid skip count [k] not
    exceeding the number of managed frames, the Eager-Sync strategy
    ([CurrentSyncStackTrace]: count, then collect into fixed storage) and
    the Lazy-Sync strategy ([CurrentSyncStackTraceLazy]: collect once into
    growable buffers) both return, and their snapshots have the same
    length and, at every index, the same code reference and the same
    pc offset. *)
Theorem eager_sync_equals_lazy_sync (thread : Thread) (k : Z) :
  0 <= k ->
  k <= Z.of_nat (length (managed_frames (stack_frames thread))) ->
  exists eager lazy thread_e thread_l,
    CurrentSyncStackTrace SpecStackTraceUtils k thread
      = Returned (eager, thread_e) /\
    CurrentSyncStackTraceLazy SpecStackTraceUtils k thread
      = Returned (lazy, thread_l) /\
    StackTrace_Length eager = StackTrace_Length lazy /\
    forall i, 0 <= i < StackTrace_Length eager ->
      CodeAtFrame eager i = CodeAtFrame lazy i /\
      PcOffsetAtFrame eager i = PcOffsetAtFrame lazy i.
Proof.
  intros _ _.
  destruct (eager_lazy_same_snapshot thread k) as (st & te & tl & He & Hl).
  exists st, st, te, tl. repeat split; assumption.
Qed.

(** C2: every capture returns a snapshot whose code-reference sequence
    and pc-offset sequence have the same length, the Frame Counter's
    result for the same skip count; in the two-pass Eager-Sync path the
    number of frames collected equals the count made first, so its
    assertion never fails and the capture returns.  (The explicit
    primitive stops at its own assertion on a thread without any frame;
    whenever it returns, the lengths agree as well.) *)
Theorem snapshot_lengths_agree (flags : Flags) (for_async_function : bool)
    (thread : Thread) (k : Z) :
  exists count,
    CountFrames SpecStackTraceUtils k Null None thread
      = Returned (count, thread) /\
    (exists st,
       CurrentSyncStackTrace SpecStackTraceUtils k thread
         = Returned (st, thread) /\
       Array_Length (code_array st) = count /\
       TypedData_Length (pc_offset_array st) = count) /\
    (exists st thread',
       CurrentStackTrace SpecStackTraceUtils flags for_async_function k thread
         = Returned (st, thread') /\
       Array_Length (code_array st) = count /\
       TypedData_Length (pc_offset_array st) = count) /\
    match GetCurrentStackTrace k thread with
    | Returned (st, _) =>
        Array_Length (code_array st) = count /\
        TypedData_Length (pc_offset_array st) = count
    | AssertionFailed _ => stack_frames thread = []
    end.
Proof.
  set (E := eligible_frames (stack_frames thread) k).
  assert (Hlen : StackTrace_Length (snapshot_of E) = Z.of_nat (length E))
    by apply StackTrace_Length_snapshot_of.
  exists (Z.of_nat (length E)). split; [|split; [|split]].
  - cbn. unfold bind, Thread_Current, ret, walk_of, StackFrameIterator_new.
    now rewrite CountFrames_loop_eligible.
  - exists (snapshot_of E). split; [apply CurrentSyncStackTrace_run|].
    split; [exact Hlen | reflexivity].
  - unfold CurrentStackTrace. destruct (FLAG_lazy_async_stacks flags).
    + eexists _, _. split; [apply CurrentSyncStackTraceLazy_run|].
      split; [exact Hlen | reflexivity].
    + eexists _, _. split; [apply CurrentSyncStackTrace_run|].
      split; [exact Hlen | reflexivity].
  - destruct (stack_frames thread) as [|frame frames] eqn:Hstack.
    + now rewrite GetCurrentStackTrace_no_frame.
    + rewrite GetCurrentStackTrace_run by (rewrite Hstack; discriminate).
      rewrite Hstack. split; [exact Hlen | reflexivity].
Qed.

(** C4: given parallel sequences of code references and raw offsets,
    [CreateStackTraceObject] returns a snapshot whose code references are
    those given and whose raw offset buffer is, byte for byte and so word
    for word, the memory of the source offsets; the one [memmove] it
    performs, of length times [kWordSize] bytes, runs with one more
    no-safepoint scope open than at the call, and the scope is closed
    again on return. *)
Theorem snapshot_builder_copies_verbatim
    (code_list : GrowableObjectArray) (pc_offset_list : GrowableArray)
    (thread : Thread) :
  exists st thread',
    CreateStackTraceObject code_list pc_offset_list thread
      = Returned (st, thread') /\
    code_array st = code_list /\
    TypedData_Length (pc_offset_array st) = GrowableArray_length pc_offset_list /\
    td_data (pc_offset_array st) = GrowableArray_data pc_offset_list /\
    (forall (i : nat) (w : Z), pc_offset_list !! i = Some w ->
       TypedData_GetUintPtr (pc_offset_array st)
         (Z.of_nat i * Z.of_nat kWordSize) = to_uword w) /\
    memmoves thread'
      = memmoves thread ++
        [{| mm_bytes := GrowableArray_length pc_offset_list * Z.of_nat kWordSize;
            mm_no_safepoint_depth := S (no_safepoint_scope_depth thread) |}] /\
    no_safepoint_scope_depth thread' = no_safepoint_scope_depth thread /\
    stack_frames thread' = stack_frames thread.
Proof.
  eexists _, _. split; [apply CreateStackTraceObject_run|].
  cbn. repeat split.
  intros i w Hw. now apply (GetUintPtr_data _ pc_offset_list).
Qed.

(** C7: on every stack and for every skip count [k] that leaves at least
    one eligible frame, the capture with skip count [k + 1] returns the
    snapshot of the capture with skip count [k] without its entry at
    index 0: one entry fewer, the others the same and in the same
    order. *)
Theorem skip_one_more_drops_innermost (thread : Thread) (k : Z) :
  0 <= k ->
  k < Z.of_nat (length (managed_frames (stack_frames thread))) ->
  exists st st' thread1 thread2,
    GetCurrentStackTrace k thread = Returned (st, thread1) /\
    GetCurrentStackTrace (k + 1) thread = Returned (st', thread2) /\
    entries st' = drop 1 (entries st) /\
    StackTrace_Length st' = StackTrace_Length st - 1.
Proof.
  intros Hk Hsome.
  assert (Hstack : stack_frames thread <> []).
  { intros Hnil. rewrite Hnil in Hsome. simpl in Hsome. lia. }
  eexists _, _, _, _. split; [now apply GetCurrentStackTrace_run|].
  split; [now apply GetCurrentStackTrace_run|].
  rewrite !entries_snapshot_of, !StackTrace_Length_snapshot_of.
  rewrite eligible_frames_succ by assumption. split.
  - change (map frame_entry ?l) with (frame_entry <$> l).
    now rewrite fmap_drop.
  - rewrite length_drop.
    pose proof (eligible_frames_length (stack_frames thread) k Hk). lia.
Qed.

(** C8: [HasStack] returns false exactly when the thread has no frame of
    any kind, and true otherwise; in particular it returns true when the
    only frames present are not managed ones. *)
Theorem HasStack_any_frame (thread : Thread) :
  (HasStack thread = false <-> stack_frames thread = []) /\
  (HasStack thread = true <-> stack_frames thread <> []) /\
  (stack_frames thread <> [] ->
   managed_frames (stack_frames thread) = [] ->
   HasStack thread = true).
Proof.
  unfold HasStack, StackFrameIterator_new.
  destruct (stack_frames thread) as [|frame frames]; simpl.
  - repeat split; intros; congruence.
  - repeat split; intros; congruence.
Qed.

(** C10: for every thread state, configuration and skip count, two calls
    of [CurrentStackTrace] that differ only in [for_async_function] give
    the same result, whatever [StackTraceUtils] does. *)
Theorem for_async_function_ignored (utils : StackTraceUtils) (flags : Flags)
    (for_async_function for_async_function' : bool) (k : Z) (thread : Thread) :
  CurrentStackTrace utils flags for_async_function k thread
  = CurrentStackTrace utils flags for_async_function' k thread.
Proof. reflexivity. Qed.

(** The body of [CurrentStackTrace] has two branches: Lazy-Sync when the
    lazy flag is set and Eager-Sync otherwise, in every call context and
    whatever the configuration says about causal chains; over the walkers
    of the specification its snapshot holds the thread's own managed
    frames beyond the skip count. *)
Theorem selector_lazy_or_eager_only (utils : StackTraceUtils) (flags : Flags)
    (for_async_function : bool) (k : Z) (thread : Thread) :
  CurrentStackTrace utils flags for_async_function k thread
  = (if FLAG_lazy_async_stacks flags
     then CurrentSyncStackTraceLazy utils k thread
     else CurrentSyncStackTrace utils k thread) /\
  exists st thread',
    CurrentStackTrace SpecStackTraceUtils flags for_async_function k thread
      = Returned (st, thread') /\
    entries st = map frame_entry (eligible_frames (stack_frames thread) k).
Proof.
  split.
  - unfold CurrentStackTrace. now destruct (FLAG_lazy_async_stacks flags).
  - destruct (CurrentStackTrace_run flags for_async_function k thread)
      as [thread' Hrun].
    eexists _, _. split; [exact Hrun|]. apply entries_snapshot_of.
Qed.

(** C5: [GetStackTraceForException] calls the selector with skip count 0
    and [StackTrace_current] calls it with skip count 1, with the same
    flags and so the same choice of strategy; the snapshot for an
    exception holds every managed frame of the stack, and the snapshot of
    the public entry is that one without its innermost entry. *)
Theorem exception_skips_none_current_skips_one
    (utils : StackTraceUtils) (flags : Flags) (thread : Thread) :
  GetStackTraceForException utils flags thread
    = CurrentStackTrace utils flags false 0 thread /\
  StackTrace_current utils flags thread
    = CurrentStackTrace utils flags false 1 thread /\
  exists for_exception current thread1 thread2,
    GetStackTraceForException SpecStackTraceUtils flags thread
      = Returned (for_exception, thread1) /\
    StackTrace_current SpecStackTraceUtils flags thread
      = Returned (current, thread2) /\
    entries for_exception
      = map frame_entry (managed_frames (stack_frames thread)) /\
    entries current = drop 1 (entries for_exception).
Proof.
  split; [reflexivity|]. split; [reflexivity|].
  unfold GetStackTraceForException, StackTrace_current.
  destruct (CurrentStackTrace_run flags false 0 thread) as [thread1 H0].
  destruct (CurrentStackTrace_run flags false 1 thread) as [thread2 H1].
  eexists _, _, _, _. split; [exact H0|]. split; [exact H1|].
  rewrite !entries_snapshot_of.
  replace (eligible_frames (stack_frames thread) 1)
    with (drop 1 (eligible_frames (stack_frames thread) 0))
    by (symmetry; apply (eligible_frames_succ _ 0); lia).
  split; [reflexivity|].
  change (map frame_entry ?l) with (frame_entry <$> l). now rewrite fmap_drop.
Qed.

(** C6, as the code has it: on a stack that holds at least one frame of
    any kind, every capture requested with a skip count strictly greater
    than the number of managed frames returns a snapshot of length zero,
    through the explicit primitive and through the selector alike. *)
Theorem skip_beyond_stack_gives_empty_snapshot (flags : Flags)
    (for_async_function : bool) (thread : Thread) (k : Z) :
  stack_frames thread <> [] ->
  Z.of_nat (length (managed_frames (stack_frames thread))) < k ->
  (exists st thread',
     GetCurrentStackTrace k thread = Returned (st, thread') /\
     StackTrace_Length st = 0 /\
     TypedData_Length (pc_offset_array st) = 0 /\
     entries st = []) /\
  (exists st thread',
     CurrentStackTrace SpecStackTraceUtils flags for_async_function k thread
       = Returned (st, thread') /\
     StackTrace_Length st = 0 /\
     TypedData_Length (pc_offset_array st) = 0 /\
     entries st = []).
Proof.
  intros Hstack Hskip.
  assert (HE : eligible_frames (stack_frames thread) k = [])
    by (apply eligible_frames_all; lia).
  split.
  - eexists _, _. split; [now apply GetCurrentStackTrace_run|].
    rewrite HE. repeat split.
  - destruct (CurrentStackTrace_run flags for_async_function k thread)
      as [thread' Hrun].
    eexists _, _. split; [exact Hrun|].
    rewrite HE. repeat split.
Qed.

(** C9, as the code has it: [GetCurrentStackTrace] walks the frames of
    the iterator itself and keeps the managed ones beyond the skip count;
    the assertion of [AppendFrames], made before any filtering, fails
    exactly when the walk yields no frame of any kind.  Called from
    within an active managed call, so that a managed frame is on the
    stack, the assertion does not fire and the capture returns. *)
Theorem explicit_capture_assertion (thread : Thread) (k : Z) :
  managed_frames (stack_frames thread) <> [] ->
  (forall code_list pc_offset_list other,
     AppendFrames code_list pc_offset_list k other
       = AssertionFailed "frame != NULL"
     <-> stack_frames other = []) /\
  exists st thread',
    GetCurrentStackTrace k thread = Returned (st, thread') /\
    entries st = map frame_entry (eligible_frames (stack_frames thread) k).
Proof.
  intros Hmanaged. split.
  - intros code_list pc_offset_list other. split.
    + intros Hfail. destruct (stack_frames other) as [|f fs] eqn:Hstack;
        [reflexivity|].
      rewrite AppendFrames_run in Hfail by (rewrite Hstack; discriminate).
      discriminate Hfail.
    + apply AppendFrames_no_frame.
  - assert (Hstack : stack_frames thread <> []).
    { intros Hnil. apply Hmanaged. now rewrite Hnil. }
    eexists _, _. split; [now apply GetCurrentStackTrace_run|].
    apply entries_snapshot_of.
Qed.

(** ** Further properties of the explicit capture and of the builder *)

(** X1: on a thread with some frame, [AppendFrames] returns; what the two
    lists held before the call is still there, in front, and the call
    added the same number of elements to each, at most one per managed
    frame.  The thread is as it was. *)
Theorem AppendFrames_only_appends
    (code_list : GrowableObjectArray) (pc_offset_list : GrowableArray)
    (k : Z) (thread : Thread) :
  stack_frames thread <> [] ->
  exists codes offsets,
    AppendFrames code_list pc_offset_list k thread
      = Returned ((code_list ++ codes, pc_offset_list ++ offsets), thread) /\
    length codes = length offsets /\
    (length codes <= length (managed_frames (stack_frames thread)))%nat.
Proof.
  intros Hstack. eexists _, _. split.
  - rewrite AppendFrames_run by assumption.
    now rewrite AppendFrames_loop_eligible.
  - rewrite !length_map. split; [reflexivity|].
    unfold eligible_frames. rewrite length_drop. lia.
Qed.

(** X2: a skip count that is zero or negative skips nothing:
    [GetCurrentStackTrace] does with it what it does with 0. *)
Theorem nonpositive_skip_skips_nothing (k : Z) (thread : Thread) :
  k <= 0 ->
  GetCurrentStackTrace k thread = GetCurrentStackTrace 0 thread.
Proof.
  intros Hk. destruct (stack_frames thread) as [|frame frames] eqn:Hstack.
  - now rewrite !GetCurrentStackTrace_no_frame.
  - rewrite !GetCurrentStackTrace_run by (rewrite Hstack; discriminate).
    unfold eligible_frames. now replace (Z.to_nat k) with (Z.to_nat 0) by lia.
Qed.

(** X3: on a thread with some frame, the snapshot of
    [GetCurrentStackTrace] has as many entries as there are managed
    frames beyond the skip count, and none when the skip count reaches
    their number; its raw buffer has that many elements too. *)
Theorem explicit_capture_length (k : Z) (thread : Thread) :
  stack_frames thread <> [] ->
  exists st thread',
    GetCurrentStackTrace k thread = Returned (st, thread') /\
    StackTrace_Length st
      = Z.max 0 (Z.of_nat (length (managed_frames (stack_frames thread)))
                 - Z.max 0 k) /\
    TypedData_Length (pc_offset_array st) = StackTrace_Length st.
Proof.
  intros Hstack. eexists _, _.
  split; [now apply GetCurrentStackTrace_run|].
  rewrite StackTrace_Length_snapshot_of, TypedData_Length_snapshot_of.
  split; [|reflexivity].
  unfold eligible_frames. rewrite length_drop. lia.
Qed.

(** X4: the capture with skip count [k] holds the entries of the capture
    with skip count 0 from index [k] on, in the same order. *)
Theorem explicit_capture_skip_is_drop (k : Z) (thread : Thread) :
  0 <= k ->
  stack_frames thread <> [] ->
  exists all st thread1 thread2,
    GetCurrentStackTrace 0 thread = Returned (all, thread1) /\
    GetCurrentStackTrace k thread = Returned (st, thread2) /\
    entries st = drop (Z.to_nat k) (entries all).
Proof.
  intros Hk Hstack. eexists _, _, _, _.
  split; [now apply GetCurrentStackTrace_run|].
  split; [now apply GetCurrentStackTrace_run|].
  rewrite !entries_snapshot_of. unfold eligible_frames. simpl.
  change (map frame_entry ?l) with (frame_entry <$> l). now rewrite fmap_drop.
Qed.

(** X5: the snapshot depends on the managed frames only: two threads,
    each with some frame, whose stacks hold the same managed frames in the
    same order get the same snapshot, whatever other frames lie between
    them. *)
Theorem explicit_capture_ignores_other_frames (k : Z) (thread1 thread2 : Thread) :
  stack_frames thread1 <> [] ->
  stack_frames thread2 <> [] ->
  managed_frames (stack_frames thread1) = managed_frames (stack_frames thread2) ->
  exists st thread1' thread2',
    GetCurrentStackTrace k thread1 = Returned (st, thread1') /\
    GetCurrentStackTrace k thread2 = Returned (st, thread2').
Proof.
  intros H1 H2 Hsame. eexists _, _, _.
  split; [now apply GetCurrentStackTrace_run|].
  rewrite GetCurrentStackTrace_run by assumption.
  unfold eligible_frames. rewrite Hsame. reflexivity.
Qed.

(** X6: for the managed frame that lands at index [i] of the capture, the
    snapshot holds the frame's code at [i]; the offset read back at [i] is
    the distance from the payload start to the pc, taken as an unsigned
    word, and it is exactly [pc - PayloadStart] when that difference fits
    a word. *)
Theorem explicit_capture_entry (k : Z) (thread : Thread) (i : nat)
    (frame : StackFrame) :
  stack_frames thread <> [] ->
  eligible_frames (stack_frames thread) k !! i = Some frame ->
  exists st thread',
    GetCurrentStackTrace k thread = Returned (st, thread') /\
    CodeAtFrame st (Z.of_nat i) = CodeObject (LookupDartCode frame) /\
    PcOffsetAtFrame st (Z.of_nat i)
      = (pc frame - PayloadStart (LookupDartCode frame)) mod 2 ^ kBitsPerWord /\
    0 <= PcOffsetAtFrame st (Z.of_nat i) < 2 ^ kBitsPerWord /\
    (0 <= pc frame - PayloadStart (LookupDartCode frame) < 2 ^ kBitsPerWord ->
     PcOffsetAtFrame st (Z.of_nat i)
       = pc frame - PayloadStart (LookupDartCode frame)).
Proof.
  intros Hstack Hi. eexists _, _.
  split; [now apply GetCurrentStackTrace_run|].
  pose proof (entry_at_snapshot_of _ _ _ Hi) as Hentry.
  unfold entry_at, frame_entry, frame_pc_offset, to_uword in Hentry.
  injection Hentry as Hcode Hoffset. rewrite Hcode, Hoffset.
  split; [reflexivity|]. split; [reflexivity|]. split.
  - apply Z.mod_pos_bound, word_modulus_pos.
  - intros Hfits. now apply Z.mod_small.
Qed.

(** X7: [HasStack] tells whether [GetCurrentStackTrace] will return: the
    capture returns a snapshot exactly when [HasStack] is true, and stops
    at the assertion of [AppendFrames] exactly when it is false. *)
Theorem HasStack_guards_explicit_capture (k : Z) (thread : Thread) :
  (HasStack thread = true <->
   exists st thread', GetCurrentStackTrace k thread = Returned (st, thread')) /\
  (HasStack thread = false <->
   GetCurrentStackTrace k thread = AssertionFailed "frame != NULL").
Proof.
  destruct (stack_frames thread) as [|frame frames] eqn:Hstack.
  - rewrite GetCurrentStackTrace_no_frame by assumption.
    unfold HasStack, StackFrameIterator_new. rewrite Hstack. simpl. split; split.
    + discriminate.
    + intros (st & thread' & Hrun). discriminate Hrun.
    + reflexivity.
    + reflexivity.
  - rewrite GetCurrentStackTrace_run by (rewrite Hstack; discriminate).
    unfold HasStack, StackFrameIterator_new. rewrite Hstack. simpl. split; split.
    + intros _. eexists _, _. reflexivity.
    + reflexivity.
    + discriminate.
    + discriminate.
Qed.

(** X8: [CreateStackTraceObject] checks nothing about its two inputs: the
    code array gets the length of [code_list] and the raw buffer the
    length of [pc_offset_list], so the two agree exactly when the inputs
    do.  The buffer holds [kWordSize] bytes per element, and the [memmove]
    copies just that many: it fills the buffer and writes nothing beyond
    it. *)
Theorem snapshot_builder_sizes
    (code_list : GrowableObjectArray) (pc_offset_list : GrowableArray)
    (thread : Thread) :
  exists st thread' copy,
    CreateStackTraceObject code_list pc_offset_list thread
      = Returned (st, thread') /\
    Array_Length (code_array st) = Z.of_nat (length code_list) /\
    TypedData_Length (pc_offset_array st) = Z.of_nat (length pc_offset_list) /\
    (Array_Length (code_array st) = TypedData_Length (pc_offset_array st)
     <-> length code_list = length pc_offset_list) /\
    Z.of_nat (length (td_data (pc_offset_array st)))
      = TypedData_Length (pc_offset_array st) * Z.of_nat kWordSize /\
    memmoves thread' = memmoves thread ++ [copy] /\
    mm_bytes copy = Z.of_nat (length (td_data (pc_offset_array st))).
Proof.
  eexists _, _, _. split; [apply CreateStackTraceObject_run|].
  cbn. unfold Array_Length. rewrite GrowableArray_data_length.
  split; [reflexivity|]. split; [reflexivity|]. split; [lia|].
  split; [lia|]. split; [reflexivity|]. cbn. lia.
Qed.

(** X10: skipping one frame more from inside a managed call gives what
    the caller would have captured: with a managed frame pushed on a
    thread that has some frame, the capture with skip count [k + 1] returns
    the snapshot the capture with skip count [k] returns without it. *)
Theorem skip_hides_the_innermost_call (frame : StackFrame) (k : Z)
    (thread : Thread) :
  IsDartFrame frame = true ->
  0 <= k ->
  stack_frames thread <> [] ->
  exists st thread1 thread2,
    GetCurrentStackTrace (k + 1) (push_frame frame thread)
      = Returned (st, thread1) /\
    GetCurrentStackTrace k thread = Returned (st, thread2).
Proof.
  intros Hdart Hk Hstack. eexists _, _, _.
  split; [apply GetCurrentStackTrace_run; discriminate|].
  rewrite GetCurrentStackTrace_run by assumption.
  cbn [push_frame stack_frames].
  rewrite eligible_frames_skip by (assumption || lia).
  now replace (k + 1 - 1) with k by lia.
Qed.

(** X11: entering a call changes a capture without skip in one way only:
    a managed frame pushed on the stack puts its own entry in front of the
    entries captured before, and a frame that is not managed changes
    nothing. *)
Theorem innermost_call_is_first_entry (frame : StackFrame) (thread : Thread) :
  stack_frames thread <> [] ->
  exists st pushed thread1 thread2,
    GetCurrentStackTrace 0 thread = Returned (st, thread1) /\
    GetCurrentStackTrace 0 (push_frame frame thread)
      = Returned (pushed, thread2) /\
    entries pushed
      = if IsDartFrame frame then frame_entry frame :: entries st
        else entries st.
Proof.
  intros Hstack. eexists _, _, _, _.
  split; [now apply GetCurrentStackTrace_run|].
  split; [apply GetCurrentStackTrace_run; discriminate|].
  rewrite !entries_snapshot_of. cbn [push_frame stack_frames].
  destruct (IsDartFrame frame) eqn:Hdart.
  - rewrite eligible_frames_keep by (assumption || lia). reflexivity.
  - rewrite eligible_frames_other by assumption. reflexivity.
Qed.

(** X12: a capture leaves the thread fit for the next one: a second
    [GetCurrentStackTrace] on the thread the first one left returns the
    same snapshot; no no-safepoint scope stays open, and each of the two
    copies made ran inside one. *)
Theorem explicit_capture_repeats (k : Z) (thread : Thread) :
  stack_frames thread <> [] ->
  exists st thread1 thread2 n,
    GetCurrentStackTrace k thread = Returned (st, thread1) /\
    GetCurrentStackTrace k thread1 = Returned (st, thread2) /\
    stack_frames thread2 = stack_frames thread /\
    no_safepoint_scope_depth thread2 = no_safepoint_scope_depth thread /\
    memmoves thread2
      = memmoves thread ++
        [{| mm_bytes := n;
            mm_no_safepoint_depth := S (no_safepoint_scope_depth thread) |};
         {| mm_bytes := n;
            mm_no_safepoint_depth := S (no_safepoint_scope_depth thread) |}].
Proof.
  intros Hstack.
  set (n := Z.of_nat (length (eligible_frames (stack_frames thread) k))
            * Z.of_nat kWordSize).
  exists (snapshot_of (eligible_frames (stack_frames thread) k)),
         (after_guarded_memmove thread n),
         (after_guarded_memmove (after_guarded_memmove thread n) n), n.
  split; [now apply GetCurrentStackTrace_run|].
  split; [now apply (GetCurrentStackTrace_run k (after_guarded_memmove thread n))|].
  cbn. rewrite <- app_assoc. repeat split.
Qed.

(** X13: a capture through the selector uses the functions of one
    strategy only: with the lazy flag set its result is the same for any
    two [StackTraceUtils] with the same growable collector, whatever their
    counter and fixed collector do, and with the flag clear it is the same
    for any two with the same counter and fixed collector. *)
Theorem selector_runs_one_strategy (utils1 utils2 : StackTraceUtils)
    (flags : Flags) (for_async_function : bool) (k : Z) (thread : Thread) :
  (if FLAG_lazy_async_stacks flags
   then forall code_list pc_offset_list,
          CollectFramesLazy utils1 code_list pc_offset_list k thread
          = CollectFramesLazy utils2 code_list pc_offset_list k thread
   else (forall function sync_async_end,
           CountFrames utils1 k function sync_async_end thread
           = CountFrames utils2 k function sync_async_end thread) /\
        (forall codes offsets array_offset count thread1,
           CollectFrames utils1 codes offsets array_offset count k thread1
           = CollectFrames utils2 codes offsets array_offset count k thread1)) ->
  CurrentStackTrace utils1 flags for_async_function k thread
  = CurrentStackTrace utils2 flags for_async_function k thread.
Proof.
  unfold CurrentStackTrace. destruct (FLAG_lazy_async_stacks flags).
  - intros Hlazy. unfold CurrentSyncStackTraceLazy, bind.
    now rewrite Hlazy.
  - intros [Hcount Hcollect]. unfold CurrentSyncStackTrace, bind.
    rewrite Hcount.
    destruct (CountFrames utils2 k Null None thread) as [[n thread1]|c];
      [|reflexivity].
    now rewrite Hcollect.
Qed.

End Stacktrace.

(** ** The theorems at sample stacks, on a target with 8-byte words *)

Lemma eager_sync_equals_lazy_sync_at_three_calls :
  0 <= 1 /\
  1 <= Z.of_nat (length (managed_frames (stack_frames thread_three_calls))) /\
  exists eager lazy thread_e thread_l,
    CurrentSyncStackTrace 8 (SpecStackTraceUtils 8) 1 thread_three_calls
      = Returned (eager, thread_e) /\
    CurrentSyncStackTraceLazy 8 (SpecStackTraceUtils 8) 1 thread_three_calls
      = Returned (lazy, thread_l) /\
    StackTrace_Length eager = StackTrace_Length lazy /\
    forall i, 0 <= i < StackTrace_Length eager ->
      CodeAtFrame eager i = CodeAtFrame lazy i /\
      PcOffsetAtFrame 8 eager i = PcOffsetAtFrame 8 lazy i.
Proof.
  assert (H0 : 0 <= 1) by lia.
  assert (H1 : 1 <= Z.of_nat (length (managed_frames
                                        (stack_frames thread_three_calls))))
    by (simpl; lia).
  exact (conj H0 (conj H1
           (eager_sync_equals_lazy_sync 8 thread_three_calls 1 H0 H1))).
Defined.

Lemma skip_one_more_drops_innermost_at_three_calls :
  0 <= 1 /\
  1 < Z.of_nat (length (managed_frames (stack_frames thread_three_calls))) /\
  exists st st' thread1 thread2,
    GetCurrentStackTrace 8 1 thread_three_calls = Returned (st, thread1) /\
    GetCurrentStackTrace 8 (1 + 1) thread_three_calls = Returned (st', thread2) /\
    entries 8 st' = drop 1 (entries 8 st) /\
    StackTrace_Length st' = StackTrace_Length st - 1.
Proof.
  assert (H0 : 0 <= 1) by lia.
  assert (H1 : 1 < Z.of_nat (length (managed_frames
                                       (stack_frames thread_three_calls))))
    by (simpl; lia).
  exact (conj H0 (conj H1
           (skip_one_more_drops_innermost 8 thread_three_calls 1 H0 H1))).
Defined.

Lemma HasStack_in_runtime_only :
  stack_frames thread_in_runtime <> [] /\
  managed_frames (stack_frames thread_in_runtime) = [] /\
  HasStack thread_in_runtime = true.
Proof.
  assert (H0 : stack_frames thread_in_runtime <> []) by discriminate.
  assert (H1 : managed_frames (stack_frames thread_in_runtime) = [])
    by reflexivity.
  exact (conj H0 (conj H1
           (proj2 (proj2 (HasStack_any_frame thread_in_runtime)) H0 H1))).
Defined.

(** Skip 5 on a stack with 3 managed frames. *)
Lemma skip_five_of_three_gives_empty_snapshot :
  stack_frames thread_three_calls <> [] /\
  Z.of_nat (length (managed_frames (stack_frames thread_three_calls))) < 5 /\
  (exists st thread',
     GetCurrentStackTrace 8 5 thread_three_calls = Returned (st, thread') /\
     StackTrace_Length st = 0 /\
     TypedData_Length (pc_offset_array st) = 0 /\
     entries 8 st = []) /\
  (exists st thread',
     CurrentStackTrace 8 (SpecStackTraceUtils 8) flags_causal false 5
       thread_three_calls = Returned (st, thread') /\
     StackTrace_Length st = 0 /\
     TypedData_Length (pc_offset_array st) = 0 /\
     entries 8 st = []).
Proof.
  assert (H0 : stack_frames thread_three_calls <> []) by discriminate.
  assert (H1 : Z.of_nat (length (managed_frames
                                   (stack_frames thread_three_calls))) < 5)
    by (simpl; lia).
  exact (conj H0 (conj H1
           (skip_beyond_stack_gives_empty_snapshot 8 flags_causal false
              thread_three_calls 5 H0 H1))).
Defined.

Lemma explicit_capture_assertion_at_three_calls :
  managed_frames (stack_frames thread_three_calls) <> [] /\
  (forall code_list pc_offset_list other,
     AppendFrames 8 code_list pc_offset_list 0 other
       = AssertionFailed "frame != NULL"
     <-> stack_frames other = []) /\
  exists st thread',
    GetCurrentStackTrace 8 0 thread_three_calls = Returned (st, thread') /\
    entries 8 st
    = map (frame_entry 8) (eligible_frames (stack_frames thread_three_calls) 0).
Proof.
  assert (H0 : managed_frames (stack_frames thread_three_calls) <> [])
    by discriminate.
  exact (conj H0 (explicit_capture_assertion 8 thread_three_calls 0 H0)).
Defined.

(** Three nested managed calls, the innermost throwing: the snapshot for
    the exception holds the three frames, innermost first, with their
    offsets; the public entry leaves the innermost out. *)
Example exception_in_three_calls :
  GetStackTraceForException 8 (SpecStackTraceUtils 8) flags_causal
    thread_three_calls
  = Returned (snapshot_of 8 [frame_throw; frame_run; frame_main],
              thread_three_calls) /\
  entries 8 (snapshot_of 8 [frame_throw; frame_run; frame_main])
  = [(CodeObject code_throw, 12); (CodeObject code_run, 300);
     (CodeObject code_main, 40)].
Proof. split; vm_compute; reflexivity. Qed.

Example current_in_three_calls :
  StackTrace_current 8 (SpecStackTraceUtils 8) flags_causal thread_three_calls
  = Returned (snapshot_of 8 [frame_run; frame_main], thread_three_calls).
Proof. vm_compute. reflexivity. Qed.

(** ** Where the code departs from the specification *)

(** C3: the comment above [CurrentStackTrace] has the function itself
    handle the causal case, extracting the causal stack recorded on the
    thread and putting the current synchronous stack in front of it, and
    so has the specification for a capture in an exception context with
    causal chains enabled.  The function does not: at such a call, on a
    thread that carries a recorded chain, it runs, for every
    [StackTraceUtils], the plain Eager-Sync capture and nothing else, just
    as it does with causal chains disabled; over the walkers of the
    specification the snapshot is the thread's one managed frame, the
    recorded frame is not in it, and it does not defer to the chain. *)
Theorem causal_case_not_handled (utils : StackTraceUtils) :
  GetStackTraceForException 8 utils flags_causal thread_with_chain
    = CurrentSyncStackTrace 8 utils 0 thread_with_chain /\
  GetStackTraceForException 8 utils flags_causal thread_with_chain
    = GetStackTraceForException 8 utils flags_default thread_with_chain /\
  exists st,
    GetStackTraceForException 8 (SpecStackTraceUtils 8) flags_causal
      thread_with_chain = Returned (st, thread_with_chain) /\
    entries 8 st = [(CodeObject code_throw, 12)] /\
    entries 8 recorded_chain = [(CodeObject code_resume, 300)] /\
    ~ defers_to_chain 8 thread_with_chain st.
Proof.
  split; [reflexivity|]. split; [reflexivity|].
  exists (snapshot_of 8 [frame_throw]).
  split; [vm_compute; reflexivity|].
  split; [vm_compute; reflexivity|].
  split; [vm_compute; reflexivity|].
  intros Hdefers.
  destruct (Hdefers recorded_chain eq_refl) as [leaf Hleaf].
  vm_compute in Hleaf.
  destruct leaf as [|e1 [|e2 leaf]]; simpl in Hleaf; discriminate Hleaf.
Qed.

(** With causal chains enabled and a chain recorded on the thread, the
    capture for an exception over the walkers of the specification never
    defers to the chain. *)
Lemma exception_capture_ignores_chain :
  ~ (forall (flags : Flags) (thread : Thread) st thread',
       FLAG_causal_async_stacks flags = true ->
       GetStackTraceForException 8 (SpecStackTraceUtils 8) flags thread
         = Returned (st, thread') ->
       defers_to_chain 8 thread st).
Proof.
  intros Hclaim.
  destruct (Hclaim flags_causal thread_with_chain _ _ eq_refl eq_refl
              recorded_chain eq_refl) as [leaf Hleaf].
  vm_compute in Hleaf.
  destruct leaf as [|e1 [|e2 leaf]]; simpl in Hleaf; discriminate Hleaf.
Qed.

(** On a thread without any frame the explicit capture stops at the
    assertion of [AppendFrames], although the skip count, 1, exceeds the
    number of managed frames, 0. *)
Lemma explicit_capture_fails_without_frames :
  ~ (forall (thread : Thread) (k : Z),
       Z.of_nat (length (managed_frames (stack_frames thread))) < k ->
       exists st thread',
         GetCurrentStackTrace 8 k thread = Returned (st, thread') /\
         StackTrace_Length st = 0).
Proof.
  intros Hclaim.
  destruct (Hclaim thread_at_start 1) as (st & thread' & Hrun & _).
  - simpl. lia.
  - discriminate Hrun.
Qed.

(** The assertion of [AppendFrames] passes on a stack that holds a frame
    but no managed frame. *)
Lemma assertion_passes_without_managed_frame :
  ~ (forall (thread : Thread) (k : Z) code_list pc_offset_list lists thread',
       AppendFrames 8 code_list pc_offset_list k thread
         = Returned (lists, thread') ->
       managed_frames (stack_frames thread) <> []).
Proof.
  intros Hclaim.
  apply (Hclaim thread_in_runtime 0 [] [] ([], []) thread_in_runtime);
    reflexivity.
Qed.

(** ** The further properties at sample stacks, with 8-byte words *)

Lemma AppendFrames_only_appends_at_three_calls :
  stack_frames thread_three_calls <> [] /\
  exists codes offsets,
    AppendFrames 8 [CodeObject code_resume] [300] 1 thread_three_calls
      = Returned (([CodeObject code_resume] ++ codes, [300] ++ offsets),
                  thread_three_calls) /\
    length codes = length offsets /\
    (length codes
     <= length (managed_frames (stack_frames thread_three_calls)))%nat.
Proof.
  assert (H0 : stack_frames thread_three_calls <> []) by discriminate.
  exact (conj H0
           (AppendFrames_only_appends 8 [CodeObject code_resume] [300] 1
              thread_three_calls H0)).
Defined.

Lemma negative_skip_at_three_calls :
  -3 <= 0 /\
  GetCurrentStackTrace 8 (-3) thread_three_calls
  = GetCurrentStackTrace 8 0 thread_three_calls.
Proof.
  assert (H0 : -3 <= 0) by lia.
  exact (conj H0 (nonpositive_skip_skips_nothing 8 (-3) thread_three_calls H0)).
Defined.

Lemma explicit_capture_length_at_three_calls :
  stack_frames thread_three_calls <> [] /\
  exists st thread',
    GetCurrentStackTrace 8 3 thread_three_calls = Returned (st, thread') /\
    StackTrace_Length st
      = Z.max 0 (Z.of_nat (length (managed_frames
                                     (stack_frames thread_three_calls)))
                 - Z.max 0 3) /\
    TypedData_Length (pc_offset_array st) = StackTrace_Length st.
Proof.
  assert (H0 : stack_frames thread_three_calls <> []) by discriminate.
  exact (conj H0 (explicit_capture_length 8 3 thread_three_calls H0)).
Defined.

Lemma explicit_capture_skip_is_drop_at_three_calls :
  0 <= 2 /\
  stack_frames thread_three_calls <> [] /\
  exists all st thread1 thread2,
    GetCurrentStackTrace 8 0 thread_three_calls = Returned (all, thread1) /\
    GetCurrentStackTrace 8 2 thread_three_calls = Returned (st, thread2) /\
    entries 8 st = drop (Z.to_nat 2) (entries 8 all).
Proof.
  assert (H0 : 0 <= 2) by lia.
  assert (H1 : stack_frames thread_three_calls <> []) by discriminate.
  exact (conj H0 (conj H1
           (explicit_capture_skip_is_drop 8 2 thread_three_calls H0 H1))).
Defined.

Lemma explicit_capture_same_inside_stub :
  stack_frames thread_three_calls <> [] /\
  stack_frames thread_three_calls_in_stub <> [] /\
  managed_frames (stack_frames thread_three_calls)
    = managed_frames (stack_frames thread_three_calls_in_stub) /\
  exists st thread1' thread2',
    GetCurrentStackTrace 8 1 thread_three_calls = Returned (st, thread1') /\
    GetCurrentStackTrace 8 1 thread_three_calls_in_stub
      = Returned (st, thread2').
Proof.
  assert (H0 : stack_frames thread_three_calls <> []) by discriminate.
  assert (H1 : stack_frames thread_three_calls_in_stub <> []) by discriminate.
  assert (H2 : managed_frames (stack_frames thread_three_calls)
               = managed_frames (stack_frames thread_three_calls_in_stub))
    by reflexivity.
  exact (conj H0 (conj H1 (conj H2
           (explicit_capture_ignores_other_frames 8 1 thread_three_calls
              thread_three_calls_in_stub H0 H1 H2)))).
Defined.

Lemma explicit_capture_entry_of_run :
  stack_frames thread_three_calls <> [] /\
  eligible_frames (stack_frames thread_three_calls) 1 !! 0%nat
    = Some frame_run /\
  exists st thread',
    GetCurrentStackTrace 8 1 thread_three_calls = Returned (st, thread') /\
    CodeAtFrame st (Z.of_nat 0) = CodeObject (LookupDartCode frame_run) /\
    PcOffsetAtFrame 8 st (Z.of_nat 0)
      = (pc frame_run - PayloadStart (LookupDartCode frame_run))
          mod 2 ^ kBitsPerWord 8 /\
    0 <= PcOffsetAtFrame 8 st (Z.of_nat 0) < 2 ^ kBitsPerWord 8 /\
    (0 <= pc frame_run - PayloadStart (LookupDartCode frame_run)
       < 2 ^ kBitsPerWord 8 ->
     PcOffsetAtFrame 8 st (Z.of_nat 0)
       = pc frame_run - PayloadStart (LookupDartCode frame_run)).
Proof.
  assert (H0 : stack_frames thread_three_calls <> []) by discriminate.
  assert (H1 : eligible_frames (stack_frames thread_three_calls) 1 !! 0%nat
               = Some frame_run) by reflexivity.
  exact (conj H0 (conj H1
           (explicit_capture_entry 8 1 thread_three_calls 0 frame_run H0 H1))).
Defined.

Lemma skip_hides_the_innermost_call_at_three_calls :
  IsDartFrame frame_throw = true /\
  0 <= 0 /\
  stack_frames thread_three_calls <> [] /\
  exists st thread1 thread2,
    GetCurrentStackTrace 8 (0 + 1) (push_frame frame_throw thread_three_calls)
      = Returned (st, thread1) /\
    GetCurrentStackTrace 8 0 thread_three_calls = Returned (st, thread2).
Proof.
  assert (H0 : IsDartFrame frame_throw = true) by reflexivity.
  assert (H1 : 0 <= 0) by lia.
  assert (H2 : stack_frames thread_three_calls <> []) by discriminate.
  exact (conj H0 (conj H1 (conj H2
           (skip_hides_the_innermost_call 8 frame_throw 0 thread_three_calls
              H0 H1 H2)))).
Defined.

Lemma innermost_call_is_first_entry_in_runtime :
  stack_frames thread_in_runtime <> [] /\
  exists st pushed thread1 thread2,
    GetCurrentStackTrace 8 0 thread_in_runtime = Returned (st, thread1) /\
    GetCurrentStackTrace 8 0 (push_frame frame_throw thread_in_runtime)
      = Returned (pushed, thread2) /\
    entries 8 pushed
      = if IsDartFrame frame_throw
        then frame_entry 8 frame_throw :: entries 8 st
        else entries 8 st.
Proof.
  assert (H0 : stack_frames thread_in_runtime <> []) by discriminate.
  exact (conj H0
           (innermost_call_is_first_entry 8 frame_throw thread_in_runtime H0)).
Defined.

Lemma explicit_capture_repeats_at_three_calls :
  stack_frames thread_three_calls <> [] /\
  exists st thread1 thread2 n,
    GetCurrentStackTrace 8 0 thread_three_calls = Returned (st, thread1) /\
    GetCurrentStackTrace 8 0 thread1 = Returned (st, thread2) /\
    stack_frames thread2 = stack_frames thread_three_calls /\
    no_safepoint_scope_depth thread2
      = no_safepoint_scope_depth thread_three_calls /\
    memmoves thread2
      = memmoves thread_three_calls ++
        [{| mm_bytes := n;
            mm_no_safepoint_depth :=
              S (no_safepoint_scope_depth thread_three_calls) |};
         {| mm_bytes := n;
            mm_no_safepoint_depth :=
              S (no_safepoint_scope_depth thread_three_calls) |}].
Proof.
  assert (H0 : stack_frames thread_three_calls <> []) by discriminate.
  exact (conj H0 (explicit_capture_repeats 8 0 thread_three_calls H0)).
Defined.

Lemma selector_runs_one_strategy_lazy :
  (if FLAG_lazy_async_stacks flags_lazy
   then forall code_list pc_offset_list,
          CollectFramesLazy (SpecStackTraceUtils 8) code_list pc_offset_list 1
            thread_three_calls
          = CollectFramesLazy (growable_only_utils 8) code_list pc_offset_list 1
              thread_three_calls
   else (forall function sync_async_end,
           CountFrames (SpecStackTraceUtils 8) 1 function sync_async_end
             thread_three_calls
           = CountFrames (growable_only_utils 8) 1 function sync_async_end
               thread_three_calls) /\
        (forall codes offsets array_offset count thread1,
           CollectFrames (SpecStackTraceUtils 8) codes offsets array_offset
             count 1 thread1
           = CollectFrames (growable_only_utils 8) codes offsets array_offset
               count 1 thread1)) /\
  CurrentStackTrace 8 (SpecStackTraceUtils 8) flags_lazy false 1
    thread_three_calls
  = CurrentStackTrace 8 (growable_only_utils 8) flags_lazy false 1
      thread_three_calls.
Proof.
  assert (H0 : if FLAG_lazy_async_stacks flags_lazy
               then forall code_list pc_offset_list,
                      CollectFramesLazy (SpecStackTraceUtils 8) code_list
                        pc_offset_list 1 thread_three_calls
                      = CollectFramesLazy (growable_only_utils 8) code_list
                          pc_offset_list 1 thread_three_calls
               else (forall function sync_async_end,
                       CountFrames (SpecStackTraceUtils 8) 1 function
                         sync_async_end thread_three_calls
                       = CountFrames (growable_only_utils 8) 1 function
                           sync_async_end thread_three_calls) /\
                    (forall codes offsets array_offset count thread1,
                       CollectFrames (SpecStackTraceUtils 8) codes offsets
                         array_offset count 1 thread1
                       = CollectFrames (growable_only_utils 8) codes offsets
                           array_offset count 1 thread1))
    by (simpl; reflexivity).
  exact (conj H0
           (selector_runs_one_strategy 8 (SpecStackTraceUtils 8)
              (growable_only_utils 8) flags_lazy false 1 thread_three_calls H0)).
Defined.
